(** * dnscrypt-proxy-r2: response cache and DNSCrypt certificate retrieval

    A shallow embedding of two source files of the proxy:
    - package [channels]: the cache key, the TTL policy and the two cache
      plugins ([PluginCache], [PluginCacheResponse]);
    - package [main]: [FetchCurrentDNSCryptCert], [packTxtString] and
      [dnsExchange].

    Go values are modelled as follows.  Unsigned machine integers are [Z]
    with the wrap-around written out; [[]byte] is [list byte]; a Go [string]
    is a [string]; a [*dns.Msg] is a location in a heap [gmap positive Msg],
    so that two holders of one pointer see each other's writes; a runtime
    panic is the result [None].  The resource records of a message are held
    by value inside it.  Calls to [dlog] only write to the log sink and are
    left out. *)

From Stdlib Require Import ZArith Lia Bool List.
From Stdlib Require Import Strings.Byte Strings.Ascii Strings.String.
From stdpp Require Import gmap strings list fin_maps.
Import ListNotations.

Open Scope Z_scope.

(** ** Machine integers and bytes *)

Definition uint32 (z : Z) : Z := z mod 2^32.

(** Conversion to a signed 64-bit integer (two's complement). *)
Definition int64 (z : Z) : Z := (z + 2^63) mod 2^64 - 2^63.

Definition Z_of_byte (b : byte) : Z := Z.of_N (Byte.to_N b).

(** [byte(v)]: the low eight bits. *)
Definition byte_of_Z (z : Z) : byte :=
  match Byte.of_N (Z.to_N (z mod 256)) with
  | Some b => b
  | None => x00
  end.

(** [b[lo:hi]] for [lo <= hi <= len(b)]; Go panics outside that range, and
    every use below is guarded by a length check. *)
Definition slice {A} (lo hi : nat) (b : list A) : list A :=
  firstn (hi - lo) (skipn lo b).

(** [copy(dst, src)]: overwrites the first [min(len dst, len src)] cells. *)
Definition copy {A} (dst src : list A) : list A :=
  let n := Nat.min (length dst) (length src) in
  firstn n src ++ skipn n dst.

(** [bytes.Equal]. *)
Fixpoint bytes_Equal (a b : list byte) : bool :=
  match a, b with
  | [], [] => true
  | x :: a', y :: b' => Byte.eqb x y && bytes_Equal a' b'
  | _, _ => false
  end.

(** *** encoding/binary, big endian *)

Definition PutUint16 (v : Z) : list byte :=
  [byte_of_Z (Z.shiftr v 8); byte_of_Z v].

Definition PutUint32 (v : Z) : list byte :=
  [byte_of_Z (Z.shiftr v 24); byte_of_Z (Z.shiftr v 16);
   byte_of_Z (Z.shiftr v 8); byte_of_Z v].

Definition Uint16 (b : list byte) : Z :=
  match b with
  | b0 :: b1 :: _ => Z.lor (Z_of_byte b1) (Z.shiftl (Z_of_byte b0) 8)
  | _ => 0
  end.

Definition Uint32 (b : list byte) : Z :=
  match b with
  | b0 :: b1 :: b2 :: b3 :: _ =>
      Z.lor (Z.lor (Z.lor (Z_of_byte b3) (Z.shiftl (Z_of_byte b2) 8))
                   (Z.shiftl (Z_of_byte b1) 16))
            (Z.shiftl (Z_of_byte b0) 24)
  | _ => 0
  end.

(** ** package time *)

(** A [time.Duration] is a signed 64-bit count of nanoseconds.  An instant
    ([time.Time]) is the count of nanoseconds since the epoch, unbounded. *)
Definition Duration := Z.
Definition Instant := Z.

Definition Second : Duration := 1000000000.
Definition Minute : Duration := 60 * Second.

Definition maxDuration : Duration := 2^63 - 1.
Definition minDuration : Duration := - 2^63.

(** [t.Sub(u)], saturating at the extreme durations. *)
Definition Sub (t u : Instant) : Duration :=
  Z.max minDuration (Z.min maxDuration (t - u)).

(** [time.Until(t)] read at clock value [now]. *)
Definition Until (now t : Instant) : Duration := Sub t now.

(** [t.After(u)]. *)
Definition After (t u : Instant) : bool := u <? t.

(** [t.Add(d)]. *)
Definition Add (t : Instant) (d : Duration) : Instant := t + d.

(** ** package dns (github.com/miekg/dns): the parts the proxy uses *)

Module dns.

Definition TypeTXT : Z := 16.
Definition TypeOPT : Z := 41.

Definition RcodeSuccess : Z := 0.
Definition RcodeServerFailure : Z := 2.
Definition RcodeNameError : Z := 3.
Definition RcodeRefused : Z := 5.
Definition RcodeNotAuth : Z := 9.

Record RR_Header := mkRR_Header {
  Name : string;
  Rrtype : Z;
  Class : Z;
  Ttl : Z;
  Rdlength : Z
}.

(** The dynamic type of a resource record: [*dns.TXT] or any other. *)
Inductive RData :=
  | TXT (Txt : list string)
  | OtherRData (raw : list byte).

Record RR := mkRR { Hdr : RR_Header; Data : RData }.

Definition set_Ttl (ttl : Z) (rr : RR) : RR :=
  {| Hdr := {| Name := Name (Hdr rr); Rrtype := Rrtype (Hdr rr);
               Class := Class (Hdr rr); Ttl := ttl;
               Rdlength := Rdlength (Hdr rr) |};
     Data := Data rr |}.

Record Question := mkQuestion { QName : string; Qtype : Z; Qclass : Z }.

Record MsgHdr := mkMsgHdr {
  Id : Z;
  Response : bool;
  Opcode : Z;
  Authoritative : bool;
  Truncated : bool;
  RecursionDesired : bool;
  RecursionAvailable : bool;
  Zero : bool;
  AuthenticatedData : bool;
  CheckingDisabled : bool;
  Rcode : Z
}.

(** [MsgHdr_] is the embedded [MsgHdr]; [Questions] is the field
    [Question], renamed apart from the type. *)
Record Msg := mkMsg {
  MsgHdr_ : MsgHdr;
  Compress : bool;
  Questions : list Question;
  Answer : list RR;
  Ns : list RR;
  Extra : list RR
}.

(** [msg.Id = id; msg.Response = r; msg.Compress = c]. *)
Definition set_Id_Response_Compress (id : Z) (r c : bool) (m : Msg) : Msg :=
  let h := MsgHdr_ m in
  {| MsgHdr_ := {| Id := id; Response := r; Opcode := Opcode h;
                   Authoritative := Authoritative h; Truncated := Truncated h;
                   RecursionDesired := RecursionDesired h;
                   RecursionAvailable := RecursionAvailable h;
                   Zero := Zero h; AuthenticatedData := AuthenticatedData h;
                   CheckingDisabled := CheckingDisabled h; Rcode := Rcode h |};
     Compress := c;
     Questions := Questions m; Answer := Answer m; Ns := Ns m;
     Extra := Extra m |}.

Definition set_sections (an ns ex : list RR) (m : Msg) : Msg :=
  {| MsgHdr_ := MsgHdr_ m; Compress := Compress m; Questions := Questions m;
     Answer := an; Ns := ns; Extra := ex |}.

(** *** Canonical names

    [dns.CanonicalName] belongs to the DNS library, not to the proxy.  It is
    modelled after the release the module file pins (v1.1.39):
    [CanonicalName(s) = strings.ToLower(Fqdn(s))]; [Fqdn] appends a dot
    unless [IsFqdn]; [IsFqdn] holds when the name ends in a dot that is
    preceded by an even number of backslashes (an unescaped dot).  Names are
    taken to be ASCII, as the message decoder produces them, so that
    [strings.ToLower] only moves [A-Z]. *)

Definition lower (c : ascii) : ascii :=
  let n := nat_of_ascii c in
  if (65 <=? n)%nat && (n <=? 90)%nat then ascii_of_nat (n + 32) else c.

Fixpoint ToLower (s : string) : string :=
  match s with
  | EmptyString => EmptyString
  | String c r => String (lower c) (ToLower r)
  end.

Fixpoint leading_backslashes (l : list ascii) : nat :=
  match l with
  | c :: r => if Ascii.eqb c "\" then S (leading_backslashes r) else 0%nat
  | [] => 0%nat
  end.

Definition IsFqdn (s : string) : bool :=
  match rev (list_ascii_of_string s) with
  | c :: r => Ascii.eqb c "." && Nat.even (leading_backslashes r)
  | [] => false
  end.

Definition Fqdn (s : string) : string :=
  if IsFqdn s then s else (s ++ ".")%string.

Definition CanonicalName (s : string) : string := ToLower (Fqdn s).

End dns.

(** ** package channels: the response cache *)

Module channels.

(** A cached response holds a pointer to the message, not a copy. *)
Record CachedResponse := mkCachedResponse {
  Msg : positive;
  expiration : Instant
}.

(** What the cache plugins use and this file does not define: the SHA-512/256
    hash, the bounded store of package [conceptions] ([Get] may reorder the
    store, [Add] may evict: both return the store they leave), and the
    plugin-state value that marks a query as answered by a plugin. *)
Class Collaborators := {
  sha512_256 : list byte -> list byte;
  sha512_256_Size : forall m, length (sha512_256 m) = 32%nat;
  Cache : Type;
  Cache_Get : Cache -> list byte -> option CachedResponse * Cache;
  Cache_Add : Cache -> list byte -> CachedResponse -> Cache;
  PluginsStateAction : Type;
  PluginsStateSynth : PluginsStateAction
}.

Section Plugins.

Context `{Collaborators}.

(** The fields of the per-query state that the cache plugins touch.
    [hash_key] is the pointee of the [*[32]byte]; [sessionData] maps a name
    to the [*dns.Msg] stored under it. *)
Record PluginsState := mkPluginsState {
  dnssec : bool;
  hash_key : list byte;
  sessionData : gmap string positive;
  synthResponse : option positive;
  state : PluginsStateAction;
  CacheHit : bool;
  CacheMinTTL : Z;
  CacheMaxTTL : Z;
  CacheNegMinTTL : Z;
  CacheNegMaxTTL : Z
}.

Definition set_stale (p : positive) (ps : PluginsState) : PluginsState :=
  {| dnssec := dnssec ps; hash_key := hash_key ps;
     sessionData := <["stale" := p]> (sessionData ps);
     synthResponse := synthResponse ps; state := state ps;
     CacheHit := CacheHit ps; CacheMinTTL := CacheMinTTL ps;
     CacheMaxTTL := CacheMaxTTL ps; CacheNegMinTTL := CacheNegMinTTL ps;
     CacheNegMaxTTL := CacheNegMaxTTL ps |}.

Definition set_synth (p : positive) (ps : PluginsState) : PluginsState :=
  {| dnssec := dnssec ps; hash_key := hash_key ps;
     sessionData := sessionData ps;
     synthResponse := Some p; state := PluginsStateSynth;
     CacheHit := true; CacheMinTTL := CacheMinTTL ps;
     CacheMaxTTL := CacheMaxTTL ps; CacheNegMinTTL := CacheNegMinTTL ps;
     CacheNegMaxTTL := CacheNegMaxTTL ps |}.

(** The memory shared by all query flows: the messages and the store. *)
Record Memory := mkMemory {
  heap : gmap positive dns.Msg;
  cache : Cache
}.

Definition computeCacheKey (dnssec : bool) (Qtype Qclass : Z) (Name : string)
  : list byte :=
  let tmp := PutUint16 Qtype ++ PutUint16 Qclass
             ++ [if dnssec then x01 else x00] in
  let normalizedRawQName := list_byte_of_string (dns.CanonicalName Name) in
  let sum := sha512_256 (tmp ++ normalizedRawQName) in
  sum.

(** [None]: index out of range at [msg.Question[0]]. *)
Definition ComputeCacheKey (pluginsState : PluginsState) (msg : dns.Msg)
  : option (list byte) :=
  match dns.Questions msg with
  | [] => None
  | question :: _ =>
      Some (computeCacheKey (dnssec pluginsState) (dns.Qtype question)
              (dns.Qclass question) (dns.QName question))
  end.

(** [updateTTL] on the pointee; [now] is the clock read by [time.Until]. *)
Definition updateTTL_Msg (now : Instant) (msg : dns.Msg) (expiration : Instant)
  : dns.Msg :=
  let until := Until now expiration in
  let ttl := if 0 <? until then uint32 (until / Second) else 0 in
  dns.set_sections
    (map (dns.set_Ttl ttl) (dns.Answer msg))
    (map (dns.set_Ttl ttl) (dns.Ns msg))
    (map (fun rr => if negb (dns.Rrtype (dns.Hdr rr) =? dns.TypeOPT)
                    then dns.set_Ttl ttl rr else rr) (dns.Extra msg))
    msg.

(** [updateTTL] through the pointer; [None]: nil dereference. *)
Definition updateTTL (now : Instant) (h : gmap positive dns.Msg)
    (msg : positive) (expiration : Instant) : option (gmap positive dns.Msg) :=
  match h !! msg with
  | Some m => Some (<[msg := updateTTL_Msg now m expiration]> h)
  | None => None
  end.

(** [(plugin *PluginCache) Eval].  [now] is the clock read by [time.Now()],
    [now'] the later one read inside [updateTTL].  The result carries the
    memory and the query state the call leaves, and the returned error (always
    nil); [None] is a nil dereference. *)
Definition PluginCache_Eval (now now' : Instant) (mem : Memory)
    (pluginsState : PluginsState) (msg : positive)
  : option (Memory * PluginsState * option string) :=
  let '(CachedAny, c) := Cache_Get (cache mem) (hash_key pluginsState) in
  match CachedAny with
  | None => Some (mkMemory (heap mem) c, pluginsState, None)
  | Some synth =>
      match heap mem !! msg, heap mem !! Msg synth with
      | Some q, Some s =>
          let h1 := <[Msg synth :=
                       dns.set_Id_Response_Compress (dns.Id (dns.MsgHdr_ q))
                         true true s]> (heap mem) in
          if After now (expiration synth) then
            Some (mkMemory h1 c, set_stale (Msg synth) pluginsState, None)
          else
            match updateTTL now' h1 (Msg synth) (expiration synth) with
            | Some h2 =>
                Some (mkMemory h2 c, set_synth (Msg synth) pluginsState, None)
            | None => None
            end
      | _, _ => None
      end
  end.

Definition lower_to (ttl : Z) (rr : dns.RR) : Z :=
  if dns.Ttl (dns.Hdr rr) <? ttl then dns.Ttl (dns.Hdr rr) else ttl.

Definition getMinTTL (msg : dns.Msg)
    (minTTL maxTTL CacheNegMinTTL CacheNegMaxTTL : Z) : Duration :=
  let Rcode := dns.Rcode (dns.MsgHdr_ msg) in
  if (negb (Rcode =? dns.RcodeSuccess) && negb (Rcode =? dns.RcodeNameError))
     || ((length (dns.Answer msg) <=? 0)%nat && (length (dns.Ns msg) <=? 0)%nat)
  then int64 (CacheNegMinTTL * Second)
  else
    let ttl := if Rcode =? dns.RcodeSuccess then maxTTL else CacheNegMaxTTL in
    let ttl :=
      if (0 <? length (dns.Answer msg))%nat
      then fold_left lower_to (dns.Answer msg) ttl
      else fold_left lower_to (dns.Ns msg) ttl in
    let ttl :=
      if Rcode =? dns.RcodeSuccess
      then (if ttl <? minTTL then minTTL else ttl)
      else (if ttl <? CacheNegMinTTL then CacheNegMinTTL else ttl) in
    int64 (ttl * Minute).

(** [(plugin *PluginCacheResponse) Eval].  [now] is the clock read by
    [time.Now()], [now'] the one read inside [updateTTL]. *)
Definition PluginCacheResponse_Eval (now now' : Instant) (mem : Memory)
    (pluginsState : PluginsState) (msg : positive)
  : option (Memory * option string) :=
  match heap mem !! msg with
  | None => None
  | Some m =>
      let Rcode := dns.Rcode (dns.MsgHdr_ m) in
      if negb (Rcode =? dns.RcodeSuccess) && negb (Rcode =? dns.RcodeNameError)
         && negb (Rcode =? dns.RcodeNotAuth)
      then Some (mem, None)
      else if dns.Truncated (dns.MsgHdr_ m) then Some (mem, None)
      else
        let ttl := getMinTTL m (CacheMinTTL pluginsState)
                     (CacheMaxTTL pluginsState) (CacheNegMinTTL pluginsState)
                     (CacheNegMaxTTL pluginsState) in
        let CachedResponse := mkCachedResponse msg (Add now ttl) in
        let c := Cache_Add (cache mem) (hash_key pluginsState)
                   CachedResponse in
        match updateTTL now' (heap mem) msg (expiration CachedResponse) with
        | Some h => Some (mkMemory h c, None)
        | None => None
        end
  end.

End Plugins.

End channels.

(** ** package main: retrieval of the DNSCrypt certificate *)

Module main.

(** [strings.HasSuffix]. *)
Definition HasSuffix (s suffix : string) : bool :=
  (String.length suffix <=? String.length s)%nat
  && String.eqb
       (substring (String.length s - String.length suffix)
          (String.length suffix) s)
       suffix.

(** Modelled from the spec: the declaration of [CryptoConstruction] and of its
    constants is not among the sources.  The spec gives the enumeration
    Undefined, XSalsa20Poly1305, XChaCha20Poly1305, in this order, a higher
    value being preferred; the code compares the values as integers. *)
Definition UndefinedConstruction : Z := 0.
Definition XSalsa20Poly1305 : Z := 1.
Definition XChacha20Poly1305 : Z := 2.

(** Modelled from the spec: the constant [ClientMagicLen] is not among the
    sources; the spec gives [magic_query] as an 8-byte prefix. *)
Definition ClientMagicLen : nat := 8.

Record CertInfo := mkCertInfo {
  ServerPk : list byte;
  SharedKey : list byte;
  MagicQuery : list byte;
  CryptoConstruction : Z;
  ForwardSecurity : bool
}.

(** [CertInfo{}]. *)
Definition CertInfo_zero : CertInfo :=
  {| ServerPk := repeat x00 32; SharedKey := repeat x00 32;
     MagicQuery := repeat x00 ClientMagicLen;
     CryptoConstruction := 0; ForwardSecurity := false |}.

Definition set_CryptoConstruction (c : Z) (ci : CertInfo) : CertInfo :=
  {| ServerPk := ServerPk ci; SharedKey := SharedKey ci;
     MagicQuery := MagicQuery ci; CryptoConstruction := c;
     ForwardSecurity := ForwardSecurity ci |}.

Definition set_ForwardSecurity (b : bool) (ci : CertInfo) : CertInfo :=
  {| ServerPk := ServerPk ci; SharedKey := SharedKey ci;
     MagicQuery := MagicQuery ci; CryptoConstruction := CryptoConstruction ci;
     ForwardSecurity := b |}.

(** The fields of [Proxy] that certificate retrieval reads. *)
Record Proxy := mkProxy {
  proxySecretKey : list byte;
  certIgnoreTimestamp : bool
}.

(** *** The TXT escape decoder *)

Definition isDigit (b : byte) : bool :=
  (Z_of_byte x30 <=? Z_of_byte b) && (Z_of_byte b <=? Z_of_byte x39).

Definition dddToByte (s : list byte) : byte :=
  match s with
  | s0 :: s1 :: s2 :: _ =>
      byte_of_Z ((Z_of_byte s0 - Z_of_byte x30) * 100
                 + (Z_of_byte s1 - Z_of_byte x30) * 10
                 + (Z_of_byte s2 - Z_of_byte x30))
  | _ => x00
  end.

(** The byte appended for the character [c] that follows a backslash, when
    it does not start a three-digit escape: t, r, n, or the character. *)
Definition unescape (c : byte) : byte :=
  if Byte.eqb c x74 then x09
  else if Byte.eqb c x72 then x0d
  else if Byte.eqb c x6e then x0a
  else c.

(** The loop of [packTxtString] over the bytes from index [i] on. *)
Fixpoint packTxt (bs : list byte) : list byte :=
  match bs with
  | [] => []
  | b :: rest =>
      if Byte.eqb b x5c then
        match rest with
        | [] => []
        | c :: rest' =>
            match rest' with
            | c1 :: c2 :: rest'' =>
                if isDigit c && isDigit c1 && isDigit c2
                then dddToByte [c; c1; c2] :: packTxt rest''
                else unescape c :: packTxt rest'
            | _ => unescape c :: packTxt rest'
            end
        end
      else b :: packTxt rest
  end.

Definition packTxtString (s : string) : list byte :=
  packTxt (list_byte_of_string s).

(** *** Collaborators

    What retrieval uses and this file does not define: the network endpoint
    type, the certificate magic, Ed25519 verification
    ([ed25519.Verify(pk, message, sig)]), the derivation of the shared key, and
    the network.  [_dnsExchange] is one exchange attempt over a network in
    state [Net]: it yields an error or a response with its round-trip time,
    and the state the network is left in. *)
Class Collaborators := {
  Endpoint : Type;
  CertMagic : list byte;
  ed25519_Verify : list byte -> list byte -> list byte -> bool;
  ComputeSharedKey : Z -> list byte -> list byte -> string -> list byte;
  Net : Type;
  _dnsExchange : Net -> string -> string -> string -> option Endpoint
                 -> (string + dns.Msg * Duration) * Net
}.

Section Resolver.

Context `{Collaborators}.

(** [dnsExchange]: a failed attempt through a relay is retried once,
    directly.  The error (or the response and its round-trip time), the flag
    [relay_f], and the network state. *)
Definition dnsExchange (net : Net) (proto query serverAddress : string)
    (relayAddr : option Endpoint)
  : (string + dns.Msg * Duration) * bool * Net :=
  let relay_f := match relayAddr with None => true | Some _ => false end in
  let '(r, net1) := _dnsExchange net proto query serverAddress relayAddr in
  match r, relayAddr with
  | inl err, Some _ =>
      let relay_f := true in
      let '(r2, net2) := _dnsExchange net1 proto query serverAddress None in
      (r2, relay_f, net2)
  | _, _ => (r, relay_f, net1)
  end.

(** The variables that the relay loop assigns: [in], [rtt] and [err] (the
    outcome of the last attempt; [None] before the first), [workingSet], and
    the network. *)
Record RelayLoop := mkRelayLoop {
  last : option (string + dns.Msg * Duration);
  workingSet : list (option Endpoint);
  network : Net
}.

(** One iteration of [for i, relayAddr := range relays]. *)
Definition relayAttempt (proto query serverAddress : string)
    (st : RelayLoop) (relayAddr : option Endpoint) : RelayLoop :=
  let '(r, relay_f, net') :=
    dnsExchange (network st) proto query serverAddress relayAddr in
  match r with
  | inl err => mkRelayLoop (Some r) (workingSet st) net'
  | inr _ =>
      if negb relay_f
      then mkRelayLoop (Some r) (workingSet st ++ [relayAddr]) net'
      else mkRelayLoop (Some r) (workingSet st) net'
  end.

Definition relayLoop (net : Net) (proto query serverAddress : string)
    (relays : list (option Endpoint)) : RelayLoop :=
  fold_left (relayAttempt proto query serverAddress) relays
    (mkRelayLoop None [] net).

(** The body of [for _, answerRr := range in.Answer], on the loop's variables
    [certInfo] and [highestSerial]; every [continue] returns them as they are
    at that point. *)
Definition arbitrate (proxy : Proxy) (pk : list byte) (providerName : string)
    (now : Z) (st : CertInfo * Z) (answerRr : dns.RR) : CertInfo * Z :=
  let '(certInfo, highestSerial) := st in
  match dns.Data answerRr with
  | dns.OtherRData _ => st
  | dns.TXT t =>
    let txt := String.concat "" t in
    let binCert := packTxtString txt in
    if (length binCert <? 124)%nat then st else
    if negb (bytes_Equal (firstn 4 binCert) (firstn 4 CertMagic)) then st else
    let esVersion := Uint16 (slice 4 6 binCert) in
    match (if esVersion =? 1 then Some XSalsa20Poly1305
           else if esVersion =? 2 then Some XChacha20Poly1305
           else None) with
    | None => st
    | Some cryptoConstruction =>
      let signature := slice 8 72 binCert in
      let signed := skipn 72 binCert in
      if negb (ed25519_Verify pk signed signature) then st else
      let serial := Uint32 (slice 112 116 binCert) in
      let tsBegin := Uint32 (slice 116 120 binCert) in
      let tsEnd := Uint32 (slice 120 124 binCert) in
      if tsEnd <=? tsBegin then st else
      let ttl := uint32 (tsEnd - tsBegin) in
      let certInfo :=
        if 86400 * 7 <? ttl
        then set_ForwardSecurity false certInfo
        else set_ForwardSecurity true certInfo in
      if negb (certIgnoreTimestamp proxy)
         && ((tsEnd <? now) || (now <? tsBegin))
      then (certInfo, highestSerial) else
      if serial <? highestSerial then (certInfo, highestSerial) else
      if (serial =? highestSerial)
         && (cryptoConstruction <? CryptoConstruction certInfo)
      then (certInfo, highestSerial) else
      if negb (cryptoConstruction =? XChacha20Poly1305)
         && negb (cryptoConstruction =? XSalsa20Poly1305)
      then (certInfo, highestSerial) else
      let serverPk := copy (repeat x00 32) (slice 72 104 binCert) in
      let sharedKey :=
        ComputeSharedKey cryptoConstruction (proxySecretKey proxy) serverPk
          providerName in
      ({| SharedKey := sharedKey;
          CryptoConstruction := cryptoConstruction;
          ServerPk := copy (ServerPk certInfo) serverPk;
          MagicQuery := copy (MagicQuery certInfo) (slice 104 112 binCert);
          ForwardSecurity := ForwardSecurity certInfo |},
       serial)
    end
  end.

(** The whole loop, from [certInfo := CertInfo{CryptoConstruction:
    UndefinedConstruction}] and [highestSerial := 0]. *)
Definition arbitration (proxy : Proxy) (pk : list byte) (providerName : string)
    (now : Z) (answers : list dns.RR) : CertInfo * Z :=
  fold_left (arbitrate proxy pk providerName now) answers
    (set_CryptoConstruction UndefinedConstruction CertInfo_zero, 0).

(** The tuple returned with an error before any certificate is read. *)
Definition failure (err : string)
  : list (option Endpoint) * CertInfo * Z * option string :=
  ([], CertInfo_zero, 0, Some err).

(** [FetchCurrentDNSCryptCert].  [net] is the network before the call and
    [unixNow] the value of [time.Now().Unix()] read after the exchanges.  The
    result is the returned tuple (relays, certificate, round-trip time in
    milliseconds, error) and the network after the call; [None] is the nil
    dereference of [in] when no exchange has assigned it.  [certificates] is
    the rest of the function from the test of [err] on, which both branches
    of [if len(relays) > 0] reach.  [serverName] and [isNew] only reach the
    log. *)
Definition FetchCurrentDNSCryptCert (net : Net) (unixNow : Z) (proxy : Proxy)
    (serverName : option string) (proto : string) (pk : list byte)
    (serverAddress providerName : string) (isNew : bool)
    (relays : list (option Endpoint))
  : option ((list (option Endpoint) * CertInfo * Z * option string) * Net) :=
  if negb (length pk =? 32)%nat
  then Some (failure "Invalid public key length", net)
  else
    let providerName :=
      if negb (HasSuffix providerName ".")
      then (providerName ++ ".")%string else providerName in
    let certificates (st : RelayLoop) :=
      match last st with
      | Some (inl err) => Some (failure err, network st)
      | Some (inr (in_, rtt)) =>
          let now := uint32 unixNow in
          let '(certInfo, _) :=
            arbitration proxy pk providerName now (dns.Answer in_) in
          if CryptoConstruction certInfo =? UndefinedConstruction
          then Some (([], certInfo, 0, Some "No useable certificate found"%string),
                     network st)
          else Some ((workingSet st, certInfo, Z.quot rtt 1000000, None),
                     network st)
      | None => None
      end in
    if (0 <? length relays)%nat
    then
      let st := relayLoop net proto providerName serverAddress relays in
      if (length (workingSet st) <? 1)%nat
      then Some (failure "all relays failed", network st)
      else certificates st
    else
      let '(r, _, net') :=
        dnsExchange net proto providerName serverAddress None in
      certificates (mkRelayLoop (Some r) [] net').

End Resolver.

End main.

(** ** The TTL policy as the specification words it

    A response is negative when its status is neither success nor name-error,
    or when it carries no answer and no authority record; a negative response
    gets the negative floor.  Otherwise the TTL starts at the ceiling of the
    status, is lowered to the least TTL of the answer records (of the
    authority records when there is no answer), and is raised to the floor of
    the status. *)

Module policy.

Definition negative (response : dns.Msg) : bool :=
  let status := dns.Rcode (dns.MsgHdr_ response) in
  (negb (status =? dns.RcodeSuccess) && negb (status =? dns.RcodeNameError))
  || match dns.Answer response, dns.Ns response with
     | [], [] => true
     | _, _ => false
     end.

(** The least of [bound] and the TTLs of [records]. *)
Definition lowered (bound : Z) (records : list dns.RR) : Z :=
  fold_right (fun rr least => Z.min (dns.Ttl (dns.Hdr rr)) least) bound records.

Definition min_ttl (response : dns.Msg)
    (floor ceiling neg_floor neg_ceiling : Z) : Z :=
  let success := dns.Rcode (dns.MsgHdr_ response) =? dns.RcodeSuccess in
  let records :=
    match dns.Answer response with
    | [] => dns.Ns response
    | _ => dns.Answer response
    end in
  Z.max (if success then floor else neg_floor)
        (lowered (if success then ceiling else neg_ceiling) records).

End policy.

(** ** Relations used to state what a cache lookup leaves alone *)

(** The records agree on everything but the TTL. *)
Definition same_but_Ttl (a b : dns.RR) : Prop :=
  dns.set_Ttl 0 a = dns.set_Ttl 0 b.

(** The messages agree on everything but the id, the response flag, the
    compression flag, and the TTLs of their records. *)
Definition same_but_identity_and_Ttl (a b : dns.Msg) : Prop :=
  dns.MsgHdr_ (dns.set_Id_Response_Compress 0 false false a)
  = dns.MsgHdr_ (dns.set_Id_Response_Compress 0 false false b)
  /\ dns.Questions a = dns.Questions b
  /\ Forall2 same_but_Ttl (dns.Answer a) (dns.Answer b)
  /\ Forall2 same_but_Ttl (dns.Ns a) (dns.Ns b)
  /\ Forall2 same_but_Ttl (dns.Extra a) (dns.Extra b).

(** A response that the cache accepts: its status is success, name-error or
    not-authoritative, and it is not truncated. *)
Definition cacheable (m : dns.Msg) : bool :=
  let status := dns.Rcode (dns.MsgHdr_ m) in
  ((status =? dns.RcodeSuccess) || (status =? dns.RcodeNameError)
   || (status =? dns.RcodeNotAuth))
  && negb (dns.Truncated (dns.MsgHdr_ m)).

(** The checks of the arbitration loop that come before the comparison of
    serial numbers, on a decoded candidate. *)
Definition otherwise_valid `{main.Collaborators} (proxy : main.Proxy)
    (pk : list byte) (now : Z) (binCert : list byte) : Prop :=
  (124 <= length binCert)%nat
  /\ firstn 4 binCert = firstn 4 main.CertMagic
  /\ (Uint16 (slice 4 6 binCert) = 1 \/ Uint16 (slice 4 6 binCert) = 2)
  /\ main.ed25519_Verify pk (skipn 72 binCert) (slice 8 72 binCert) = true
  /\ Uint32 (slice 116 120 binCert) < Uint32 (slice 120 124 binCert)
  /\ (main.certIgnoreTimestamp proxy = false ->
      Uint32 (slice 116 120 binCert) <= now <= Uint32 (slice 120 124 binCert)).

(** What [FetchCurrentDNSCryptCert] returns once the arbitration loop has
    ended with the variables [best]: an error when no candidate was accepted,
    and otherwise the relays, the certificate and the round-trip time in
    milliseconds. *)
Definition outcome `{main.Collaborators}
    (workingSet : list (option main.Endpoint)) (rtt : Duration)
    (best : main.CertInfo * Z)
  : list (option main.Endpoint) * main.CertInfo * Z * option string :=
  if main.CryptoConstruction (fst best) =? main.UndefinedConstruction
  then ([], fst best, 0, Some "No useable certificate found"%string)
  else (workingSet, fst best, Z.quot rtt 1000000, None).

(** The construction that a candidate announces at bytes [4:6]. *)
Definition announced (binCert : list byte) : Z :=
  if Uint16 (slice 4 6 binCert) =? 1 then main.XSalsa20Poly1305
  else main.XChacha20Poly1305.

(** ** Concrete collaborators and inputs

    Stand-ins for the collaborators, used to run the definitions on concrete
    inputs.  The theorems below hold for every collaborator. *)

Module Examples.

(** *** For the cache *)

(** A 32-byte stand-in for the hash: the message, zero-padded or cut. *)
Definition padded (m : list byte) : list byte := firstn 32 (m ++ repeat x00 32).

Lemma padded_Size m : length (padded m) = 32%nat.
Proof.
  unfold padded. rewrite length_take, length_app, repeat_length. lia.
Qed.

(** Modelled from the spec: the store of package [conceptions] is not among
    the sources.  The spec asks for a bounded mapping from key to cached
    response whose count of entries never exceeds the capacity, the eviction
    order being free.  Here: an association list of at most [capacity]
    entries, the most recently added first. *)
Definition capacity : nat := 4.

Definition store := list (list byte * channels.CachedResponse).

Fixpoint store_Get (c : store) (k : list byte) : option channels.CachedResponse :=
  match c with
  | [] => None
  | (k', v) :: c' => if bytes_Equal k' k then Some v else store_Get c' k
  end.

Definition store_Add (c : store) (k : list byte) (v : channels.CachedResponse)
  : store :=
  firstn capacity ((k, v) :: filter (fun e => negb (bytes_Equal (fst e) k)) c).

Inductive action := PluginsStateNone | PluginsStateSynth.

Definition cache_collaborators : channels.Collaborators :=
  {| channels.sha512_256 := padded;
     channels.sha512_256_Size := padded_Size;
     channels.Cache := store;
     channels.Cache_Get := fun c k => (store_Get c k, c);
     channels.Cache_Add := store_Add;
     channels.PluginsStateAction := action;
     channels.PluginsStateSynth := PluginsStateSynth |}.

Definition header (id : Z) (truncated : bool) (rcode : Z) : dns.MsgHdr :=
  dns.mkMsgHdr id false 0 false truncated true true false false false rcode.

Definition record (rrtype ttl : Z) : dns.RR :=
  dns.mkRR (dns.mkRR_Header "example.com." rrtype 1 ttl 4)
    (dns.OtherRData [xc0; x00; x02; x01]).

Definition question : dns.Question := dns.mkQuestion "Example.COM" 1 1.

(** A success response with answer TTLs 50, 10 and 300. *)
Definition response (id : Z) (truncated : bool) (rcode : Z) : dns.Msg :=
  dns.mkMsg (header id truncated rcode) false [question]
    [record 1 50; record 1 10; record 1 300] [] [record dns.TypeOPT 0].

Definition query (id : Z) : dns.Msg :=
  dns.mkMsg (header id false 0) false [question] [] [] [].

Definition key : list byte :=
  @channels.computeCacheKey cache_collaborators false 1 1 "example.com".

Definition session : @channels.PluginsState cache_collaborators :=
  @channels.mkPluginsState cache_collaborators false key ∅ None
    PluginsStateNone false 0 86400 60 600.

(** A memory holding a stored response (id 7) at location 1, cached under
    [key] until instant 100, and a query (id 9) at location 2. *)
Definition memory : @channels.Memory cache_collaborators :=
  @channels.mkMemory cache_collaborators
    (<[1%positive := response 7 false 0]> (<[2%positive := query 9]> ∅))
    [(key, channels.mkCachedResponse 1 100)].

(** A memory holding a fresh answer at location 3 and nothing cached. *)
Definition fresh (truncated : bool) (rcode : Z)
  : @channels.Memory cache_collaborators :=
  @channels.mkMemory cache_collaborators
    (<[3%positive := response 5 truncated rcode]> ∅) [].

(** *** For the certificate resolver *)

(** The network as a script: each exchange attempt takes the next outcome. *)
Definition script := list (string + dns.Msg * Duration).

Definition attempt (net : script) (proto query serverAddress : string)
    (relayAddr : option string) : (string + dns.Msg * Duration) * script :=
  match net with
  | r :: net' => (r, net')
  | [] => (inl "no route to host"%string, [])
  end.

(** The stand-in for signature verification accepts the signature that
    repeats the public key twice; the stand-in for key derivation returns the
    server's public key. *)
Definition resolver_collaborators : main.Collaborators :=
  {| main.Endpoint := string;
     main.CertMagic := [x44; x4e; x53; x43];
     main.ed25519_Verify := fun pk message sig => bytes_Equal sig (pk ++ pk);
     main.ComputeSharedKey := fun construction secret serverPk name => serverPk;
     main.Net := script;
     main._dnsExchange := attempt |}.

Definition pk : list byte := repeat x01 32.

(** The bytes of a certificate, by the layout of the wire format. *)
Definition certificate (version : Z) (signature serverPk magicQuery : list byte)
    (serial tsBegin tsEnd : Z) : list byte :=
  [x44; x4e; x53; x43] ++ PutUint16 version ++ [x00; x00] ++ signature
  ++ serverPk ++ magicQuery
  ++ PutUint32 serial ++ PutUint32 tsBegin ++ PutUint32 tsEnd.

Definition txt (binCert : list byte) : dns.RR :=
  dns.mkRR (dns.mkRR_Header "2.dnscrypt-cert.example." dns.TypeTXT 1 3600 0)
    (dns.TXT [string_of_list_byte binCert]).

Definition proxy : main.Proxy := main.mkProxy (repeat x02 32) false.

Definition now : Z := 1700000000.

(** Two certificates of serial 1 and construction XSalsa20Poly1305, valid at
    [now], that differ in the server key and the query magic. *)
Definition cert_1a : list byte :=
  certificate 1 (pk ++ pk) (repeat x0a 32) (repeat x1a 8)
    1 1699990000 1700076400.

Definition cert_1b : list byte :=
  certificate 1 (pk ++ pk) (repeat x0b 32) (repeat x1b 8)
    1 1699990000 1700076400.

(** Serial 5, valid for one day; serial 3, valid for thirty days. *)
Definition cert_5_day : list byte :=
  certificate 2 (pk ++ pk) (repeat x0a 32) (repeat x1a 8)
    5 1699990000 1700076400.

Definition cert_3_month : list byte :=
  certificate 2 (pk ++ pk) (repeat x0b 32) (repeat x1b 8)
    3 1699000000 1701592000.

(** A certificate whose signature is not the expected one. *)
Definition cert_forged : list byte :=
  certificate 2 (repeat x00 64) (repeat x0c 32) (repeat x1c 8)
    9 1699990000 1700076400.

Definition reply (answers : list dns.RR) : dns.Msg :=
  dns.mkMsg (header 1 false 0) false
    [dns.mkQuestion "2.dnscrypt-cert.example." dns.TypeTXT 1] answers [] [].

End Examples.

(** * Properties *)

(** ** Bytes and copies *)

Lemma bytes_Equal_eq (a b : list byte) : bytes_Equal a b = true <-> a = b.
Proof.
  revert b. induction a as [|x a IH]; intros [|y b]; simpl; try easy.
  rewrite andb_true_iff, IH. split.
  - intros [Hxy ->]. f_equal. now apply Byte.byte_dec_bl.
  - intros [= -> ->]. split; [now apply Byte.byte_dec_lb | reflexivity].
Qed.

Lemma copy_same_length {A} (dst src : list A) :
  length dst = length src -> copy dst src = src.
Proof.
  intros Hlen. unfold copy. rewrite Hlen, Nat.min_id.
  rewrite firstn_all. rewrite <- Hlen, skipn_all. apply app_nil_r.
Qed.

Lemma slice_length {A} (lo hi : nat) (b : list A) :
  (lo <= hi)%nat -> (hi <= length b)%nat -> length (slice lo hi b) = (hi - lo)%nat.
Proof.
  intros Hlo Hhi. unfold slice. rewrite length_take, length_drop. lia.
Qed.

(** ** Canonical names *)

Section CanonicalNames.

Import dns.

Lemma lower_dot c : Ascii.eqb (lower c) "." = Ascii.eqb c ".".
Proof. destruct c as [[] [] [] [] [] [] [] []]; reflexivity. Qed.

Lemma lower_backslash c : Ascii.eqb (lower c) "\" = Ascii.eqb c "\".
Proof. destruct c as [[] [] [] [] [] [] [] []]; reflexivity. Qed.

Lemma ToLower_ascii s :
  list_ascii_of_string (ToLower s) = map lower (list_ascii_of_string s).
Proof. induction s as [|c s IH]; simpl; [reflexivity | now rewrite IH]. Qed.

Lemma ToLower_app a b : ToLower (a ++ b) = (ToLower a ++ ToLower b)%string.
Proof. induction a as [|c a IH]; simpl; [reflexivity | now rewrite IH]. Qed.

Lemma leading_backslashes_lower l :
  leading_backslashes (map lower l) = leading_backslashes l.
Proof.
  induction l as [|c l IH]; simpl; [reflexivity |].
  rewrite lower_backslash, IH. reflexivity.
Qed.

(** Whether a name is fully qualified does not depend on letter case. *)
Lemma IsFqdn_ToLower s : IsFqdn (ToLower s) = IsFqdn s.
Proof.
  unfold IsFqdn. rewrite ToLower_ascii, <- map_rev.
  destruct (rev (list_ascii_of_string s)) as [|c r]; simpl; [reflexivity |].
  now rewrite lower_dot, leading_backslashes_lower.
Qed.

(** Lowering commutes with qualification. *)
Lemma ToLower_Fqdn s : ToLower (Fqdn s) = Fqdn (ToLower s).
Proof.
  unfold Fqdn. rewrite IsFqdn_ToLower.
  destruct (IsFqdn s); [reflexivity | apply ToLower_app].
Qed.

Lemma CanonicalName_case n1 n2 :
  ToLower n1 = ToLower n2 -> CanonicalName n1 = CanonicalName n2.
Proof. unfold CanonicalName. rewrite !ToLower_Fqdn. now intros ->. Qed.

Lemma CanonicalName_trailing_dot n :
  IsFqdn n = false -> IsFqdn (n ++ ".") = true ->
  CanonicalName (n ++ ".") = CanonicalName n.
Proof. unfold CanonicalName, Fqdn. now intros -> ->. Qed.

End CanonicalNames.

(** ** The cache key *)

Section CacheKey.

Context `{channels.Collaborators}.

(** C7.  The cache key is a function of (dnssec, qtype, qclass, name): equal
    inputs give equal keys, and a key has 32 bytes.  Two names that are equal
    up to letter case give the same key, and so do a name without a trailing
    separator and the same name with one (a final dot that is not escaped). *)
Theorem computeCacheKey_normalized :
  (forall d t c n d' t' c' n',
      (d, t, c, n) = (d', t', c', n') ->
      channels.computeCacheKey d t c n = channels.computeCacheKey d' t' c' n')
  /\ (forall d t c n, length (channels.computeCacheKey d t c n) = 32%nat)
  /\ (forall d t c n1 n2,
         dns.ToLower n1 = dns.ToLower n2 ->
         channels.computeCacheKey d t c n1 = channels.computeCacheKey d t c n2)
  /\ (forall d t c n,
         dns.IsFqdn n = false -> dns.IsFqdn (n ++ ".") = true ->
         channels.computeCacheKey d t c (n ++ ".")
         = channels.computeCacheKey d t c n).
Proof.
  repeat split.
  - now intros d t c n d' t' c' n' [= -> -> -> ->].
  - intros. apply channels.sha512_256_Size.
  - intros d t c n1 n2 Hcase. unfold channels.computeCacheKey.
    now rewrite (CanonicalName_case n1 n2 Hcase).
  - intros d t c n Hn Hdot. unfold channels.computeCacheKey.
    now rewrite (CanonicalName_trailing_dot n Hn Hdot).
Qed.

(** C10.  [ComputeCacheKey] reads [msg.Question[0]]: with a question it
    returns the key of the first one, and with an empty Question section it
    panics (index out of range). *)
Theorem ComputeCacheKey_first_question
    (pluginsState : channels.PluginsState) (msg : dns.Msg) :
  (dns.Questions msg <> [] ->
   exists question,
     head (dns.Questions msg) = Some question
     /\ channels.ComputeCacheKey pluginsState msg
        = Some (channels.computeCacheKey (channels.dnssec pluginsState)
                  (dns.Qtype question) (dns.Qclass question)
                  (dns.QName question)))
  /\ (dns.Questions msg = [] ->
      channels.ComputeCacheKey pluginsState msg = None).
Proof.
  unfold channels.ComputeCacheKey.
  destruct (dns.Questions msg) as [|question rest]; split; try easy.
  intros _. now exists question.
Qed.

End CacheKey.

(** The key of "Example.COM" is the key of "example.com." *)
Lemma computeCacheKey_normalized_witness :
  @channels.computeCacheKey Examples.cache_collaborators false 1 1 "Example.COM"
  = @channels.computeCacheKey Examples.cache_collaborators false 1 1 "example.com"
  /\ @channels.computeCacheKey Examples.cache_collaborators false 1 1 "example.com."
     = @channels.computeCacheKey Examples.cache_collaborators false 1 1 "example.com".
Proof.
  pose proof (@computeCacheKey_normalized Examples.cache_collaborators)
    as (_ & _ & Hcase & Hdot).
  split.
  - apply Hcase. reflexivity.
  - apply (Hdot false 1 1 "example.com"%string); reflexivity.
Defined.

Lemma ComputeCacheKey_first_question_witness :
  @channels.ComputeCacheKey Examples.cache_collaborators Examples.session
    (Examples.query 9)
  = Some Examples.key
  /\ @channels.ComputeCacheKey Examples.cache_collaborators Examples.session
       (dns.mkMsg (Examples.header 9 false 0) false [] [] [] [])
     = None.
Proof.
  pose proof (@ComputeCacheKey_first_question Examples.cache_collaborators
                Examples.session (Examples.query 9)) as [Hsome _].
  pose proof (@ComputeCacheKey_first_question Examples.cache_collaborators
                Examples.session
                (dns.mkMsg (Examples.header 9 false 0) false [] [] [] []))
    as [_ Hnone].
  split.
  - destruct Hsome as (q & Hq & ->); [discriminate |].
    injection Hq as <-. vm_compute. reflexivity.
  - apply Hnone. reflexivity.
Defined.

(** ** The TTL policy *)

Lemma lower_to_min ttl rr :
  channels.lower_to ttl rr = Z.min (dns.Ttl (dns.Hdr rr)) ttl.
Proof. unfold channels.lower_to. destruct (Z.ltb_spec (dns.Ttl (dns.Hdr rr)) ttl); lia. Qed.

Lemma lowered_min a bound records :
  policy.lowered (Z.min a bound) records = Z.min a (policy.lowered bound records).
Proof.
  induction records as [|rr records IH]; simpl; [reflexivity |].
  rewrite IH. lia.
Qed.

(** The loop over the records computes the least of the bound and their TTLs. *)
Lemma fold_lower_to records : forall bound,
  fold_left channels.lower_to records bound = policy.lowered bound records.
Proof.
  induction records as [|rr records IH]; intros bound; simpl; [reflexivity |].
  rewrite IH, lower_to_min. apply lowered_min.
Qed.

(** C6.  [getMinTTL] computes the policy of the specification: a negative
    response gets the negative floor, as a count of seconds, whatever the
    ceilings are; any other response gets, as a count of minutes, the ceiling
    of its status lowered to the least record TTL and raised to the floor of
    its status.  On a success response with answer TTLs 50, 10 and 300, floor
    0 and ceiling 86400, the TTL is 10. *)
Theorem getMinTTL_policy
    (msg : dns.Msg) (minTTL maxTTL CacheNegMinTTL CacheNegMaxTTL : Z) :
  channels.getMinTTL msg minTTL maxTTL CacheNegMinTTL CacheNegMaxTTL
  = (if policy.negative msg
     then int64 (CacheNegMinTTL * Second)
     else int64 (policy.min_ttl msg minTTL maxTTL CacheNegMinTTL CacheNegMaxTTL
                 * Minute))
  /\ (policy.negative msg = true -> 0 <= CacheNegMinTTL < 2^32 ->
      channels.getMinTTL msg minTTL maxTTL CacheNegMinTTL CacheNegMaxTTL
      = CacheNegMinTTL * Second)
  /\ policy.negative (Examples.response 5 false dns.RcodeSuccess) = false
  /\ policy.min_ttl (Examples.response 5 false dns.RcodeSuccess) 0 86400 60 600
     = 10
  /\ channels.getMinTTL (Examples.response 5 false dns.RcodeSuccess)
       0 86400 60 600
     = 10 * Minute.
Proof.
  assert (Hmain :
    channels.getMinTTL msg minTTL maxTTL CacheNegMinTTL CacheNegMaxTTL
    = (if policy.negative msg
       then int64 (CacheNegMinTTL * Second)
       else int64 (policy.min_ttl msg minTTL maxTTL CacheNegMinTTL
                     CacheNegMaxTTL * Minute))).
  { unfold channels.getMinTTL, policy.negative, policy.min_ttl.
    rewrite !fold_lower_to.
    destruct (negb (dns.Rcode (dns.MsgHdr_ msg) =? dns.RcodeSuccess)
              && negb (dns.Rcode (dns.MsgHdr_ msg) =? dns.RcodeNameError));
      [reflexivity |].
    destruct (dns.Answer msg) as [|a answers], (dns.Ns msg) as [|n authority];
      try reflexivity;
      cbn [orb andb length Nat.leb Nat.ltb];
      destruct (dns.Rcode (dns.MsgHdr_ msg) =? dns.RcodeSuccess);
      match goal with |- context [if ?x <? ?y then _ else _] =>
        destruct (Z.ltb_spec x y) end; do 2 f_equal; lia. }
  split; [exact Hmain |]. split.
  - intros Hneg Hrange. rewrite Hmain, Hneg. unfold int64, Second.
    rewrite Z.mod_small; lia.
  - repeat split; reflexivity.
Qed.

(** A server failure without records gets the negative floor, unmodified. *)
Lemma getMinTTL_policy_witness :
  channels.getMinTTL
    (dns.mkMsg (Examples.header 5 false dns.RcodeServerFailure) false
       [Examples.question] [] [] [])
    0 86400 60 600
  = 60 * Second.
Proof.
  apply (proj1 (proj2 (getMinTTL_policy
    (dns.mkMsg (Examples.header 5 false dns.RcodeServerFailure) false
       [Examples.question] [] [] [])
    0 86400 60 600))).
  - reflexivity.
  - lia.
Defined.

(** ** The cache plugins *)

Lemma same_but_Ttl_set ttl rr : same_but_Ttl (dns.set_Ttl ttl rr) rr.
Proof. reflexivity. Qed.

Lemma same_but_Ttl_map (f : dns.RR -> dns.RR) (l : list dns.RR) :
  (forall rr, same_but_Ttl (f rr) rr) -> Forall2 same_but_Ttl (map f l) l.
Proof.
  intros Hf. induction l as [|rr l IH]; simpl; constructor; [apply Hf | exact IH].
Qed.

(** [updateTTL] changes TTLs only, and none at all in a message without
    records. *)
Lemma updateTTL_Msg_same now m expiration :
  same_but_identity_and_Ttl (channels.updateTTL_Msg now m expiration) m.
Proof.
  unfold same_but_identity_and_Ttl, channels.updateTTL_Msg. simpl.
  repeat split; try reflexivity; apply same_but_Ttl_map; intros rr;
    try apply same_but_Ttl_set.
  destruct (negb _); [apply same_but_Ttl_set | reflexivity].
Qed.

Lemma same_but_Ttl_refl l : Forall2 same_but_Ttl l l.
Proof. induction l; constructor; [reflexivity | assumption]. Qed.

Section CachePlugins.

Context `{channels.Collaborators}.

(** C8.  [PluginCacheResponse.Eval] adds an entry exactly when the response
    is cacheable (status success, name-error or not-authoritative, and not
    truncated).  For any other response, a truncated one and one with status
    Refused among them, it returns nil and leaves the store and the messages
    as they were. *)
Theorem PluginCacheResponse_Eval_cacheable
    (now now' : Instant) (mem : channels.Memory)
    (pluginsState : channels.PluginsState) (msg : positive) (m : dns.Msg) :
  channels.heap mem !! msg = Some m ->
  (cacheable m = false ->
   channels.PluginCacheResponse_Eval now now' mem pluginsState msg
   = Some (mem, None))
  /\ (dns.Truncated (dns.MsgHdr_ m) = true ->
      channels.PluginCacheResponse_Eval now now' mem pluginsState msg
      = Some (mem, None))
  /\ (dns.Rcode (dns.MsgHdr_ m) = dns.RcodeRefused ->
      channels.PluginCacheResponse_Eval now now' mem pluginsState msg
      = Some (mem, None))
  /\ (cacheable m = true ->
      let expiration :=
        Add now (channels.getMinTTL m (channels.CacheMinTTL pluginsState)
                   (channels.CacheMaxTTL pluginsState)
                   (channels.CacheNegMinTTL pluginsState)
                   (channels.CacheNegMaxTTL pluginsState)) in
      channels.PluginCacheResponse_Eval now now' mem pluginsState msg
      = Some (channels.mkMemory
                (<[msg := channels.updateTTL_Msg now' m expiration]>
                   (channels.heap mem))
                (channels.Cache_Add (channels.cache mem)
                   (channels.hash_key pluginsState)
                   (channels.mkCachedResponse msg expiration)),
              None)).
Proof.
  intros Hm.
  assert (Hrefused : cacheable m = false ->
    channels.PluginCacheResponse_Eval now now' mem pluginsState msg
    = Some (mem, None)).
  { unfold cacheable, channels.PluginCacheResponse_Eval. rewrite Hm.
    destruct (dns.Rcode (dns.MsgHdr_ m) =? dns.RcodeSuccess),
             (dns.Rcode (dns.MsgHdr_ m) =? dns.RcodeNameError),
             (dns.Rcode (dns.MsgHdr_ m) =? dns.RcodeNotAuth),
             (dns.Truncated (dns.MsgHdr_ m)); simpl; congruence. }
  repeat split.
  - exact Hrefused.
  - intros Htc. apply Hrefused. unfold cacheable. rewrite Htc.
    apply andb_false_r.
  - intros Hrc. apply Hrefused. unfold cacheable. rewrite Hrc. reflexivity.
  - unfold cacheable, channels.PluginCacheResponse_Eval, channels.updateTTL.
    rewrite Hm. cbn [channels.expiration].
    destruct (dns.Rcode (dns.MsgHdr_ m) =? dns.RcodeSuccess),
             (dns.Rcode (dns.MsgHdr_ m) =? dns.RcodeNameError),
             (dns.Rcode (dns.MsgHdr_ m) =? dns.RcodeNotAuth),
             (dns.Truncated (dns.MsgHdr_ m)); simpl; congruence.
Qed.

(** C9.  A lookup that finds an entry whose expiration is before the current
    time returns nil and leaves the synthesized-response slot, the plugin
    state and the cache-hit flag as they were, as a miss does; it stores the
    pointer to the expired message under "stale" in the session data, and
    touches no other session entry.  The message found there is the stored
    one, carrying the query's id. *)
Theorem PluginCache_Eval_expired
    (now now' : Instant) (mem : channels.Memory)
    (pluginsState : channels.PluginsState) (msg : positive)
    (synth : channels.CachedResponse) (c : channels.Cache) (q s : dns.Msg) :
  channels.Cache_Get (channels.cache mem) (channels.hash_key pluginsState)
  = (Some synth, c) ->
  channels.heap mem !! msg = Some q ->
  channels.heap mem !! channels.Msg synth = Some s ->
  channels.expiration synth < now ->
  exists mem' pluginsState',
    channels.PluginCache_Eval now now' mem pluginsState msg
    = Some (mem', pluginsState', None)
    /\ channels.synthResponse pluginsState'
       = channels.synthResponse pluginsState
    /\ channels.state pluginsState' = channels.state pluginsState
    /\ channels.CacheHit pluginsState' = channels.CacheHit pluginsState
    /\ channels.sessionData pluginsState' !! "stale"%string
       = Some (channels.Msg synth)
    /\ (forall name, name <> "stale"%string ->
        channels.sessionData pluginsState' !! name
        = channels.sessionData pluginsState !! name)
    /\ channels.heap mem' !! channels.Msg synth
       = Some (dns.set_Id_Response_Compress (dns.Id (dns.MsgHdr_ q))
                 true true s).
Proof.
  intros Hget Hq Hs Hexp.
  unfold channels.PluginCache_Eval. rewrite Hget, Hq, Hs.
  unfold After. destruct (Z.ltb_spec (channels.expiration synth) now); [| lia].
  eexists _, _. split; [reflexivity |]. simpl.
  repeat split.
  - apply lookup_insert_eq.
  - intros name Hname. now apply lookup_insert_ne.
  - apply lookup_insert_eq.
Qed.

(** C3 (amended).  A lookup that finds an entry writes into the stored
    message, in place: its id becomes the query's id and its response and
    compression flags become true, also when the entry is found expired; when
    the entry is not expired the TTLs of its records are rewritten as well.
    Nothing else of the stored message changes, and no other message does. *)
Theorem PluginCache_Eval_stored_message
    (now now' : Instant) (mem : channels.Memory)
    (pluginsState : channels.PluginsState) (msg : positive)
    (synth : channels.CachedResponse) (c : channels.Cache) (q s : dns.Msg) :
  channels.Cache_Get (channels.cache mem) (channels.hash_key pluginsState)
  = (Some synth, c) ->
  channels.heap mem !! msg = Some q ->
  channels.heap mem !! channels.Msg synth = Some s ->
  exists s' pluginsState',
    channels.PluginCache_Eval now now' mem pluginsState msg
    = Some (channels.mkMemory (<[channels.Msg synth := s']> (channels.heap mem)) c,
            pluginsState', None)
    /\ dns.Id (dns.MsgHdr_ s') = dns.Id (dns.MsgHdr_ q)
    /\ dns.Response (dns.MsgHdr_ s') = true
    /\ dns.Compress s' = true
    /\ same_but_identity_and_Ttl s' s
    /\ (After now (channels.expiration synth) = true ->
        dns.Answer s' = dns.Answer s /\ dns.Ns s' = dns.Ns s
        /\ dns.Extra s' = dns.Extra s)
    /\ (After now (channels.expiration synth) = false ->
        s' = channels.updateTTL_Msg now'
               (dns.set_Id_Response_Compress (dns.Id (dns.MsgHdr_ q))
                  true true s)
               (channels.expiration synth)).
Proof.
  intros Hget Hq Hs.
  unfold channels.PluginCache_Eval. rewrite Hget, Hq, Hs.
  destruct (After now (channels.expiration synth)).
  - eexists _, _. split; [reflexivity |]. simpl.
    repeat split; try easy; apply same_but_Ttl_refl.
  - unfold channels.updateTTL. rewrite lookup_insert_eq, insert_insert_eq.
    eexists _, _. split; [reflexivity |]. simpl.
    repeat split; try easy; apply same_but_Ttl_map; intros rr;
      try apply same_but_Ttl_set.
    destruct (negb _); [apply same_but_Ttl_set | reflexivity].
Qed.

End CachePlugins.

(** A response with status Refused, and a truncated one, are not cached; a
    complete success response is, for ten minutes. *)
Lemma PluginCacheResponse_Eval_cacheable_witness :
  @channels.PluginCacheResponse_Eval Examples.cache_collaborators 0 0
    (Examples.fresh false dns.RcodeRefused) Examples.session 3
  = Some (Examples.fresh false dns.RcodeRefused, None)
  /\ @channels.PluginCacheResponse_Eval Examples.cache_collaborators 0 0
       (Examples.fresh true dns.RcodeSuccess) Examples.session 3
     = Some (Examples.fresh true dns.RcodeSuccess, None)
  /\ exists h,
       @channels.PluginCacheResponse_Eval Examples.cache_collaborators 0 0
         (Examples.fresh false dns.RcodeSuccess) Examples.session 3
       = Some (@channels.mkMemory Examples.cache_collaborators h
                 [(Examples.key, channels.mkCachedResponse 3 (10 * Minute))],
               None).
Proof.
  split; [| split].
  3: {
    eexists.
    rewrite (proj2 (proj2 (proj2 (@PluginCacheResponse_Eval_cacheable
               Examples.cache_collaborators 0 0
               (Examples.fresh false dns.RcodeSuccess) Examples.session 3
               (Examples.response 5 false dns.RcodeSuccess) eq_refl)))
             eq_refl).
    reflexivity. }
  - apply (proj1 (@PluginCacheResponse_Eval_cacheable
                    Examples.cache_collaborators 0 0
                    (Examples.fresh false dns.RcodeRefused) Examples.session 3
                    (Examples.response 5 false dns.RcodeRefused) eq_refl)).
    reflexivity.
  - apply (proj1 (@PluginCacheResponse_Eval_cacheable
                    Examples.cache_collaborators 0 0
                    (Examples.fresh true dns.RcodeSuccess) Examples.session 3
                    (Examples.response 5 true dns.RcodeSuccess) eq_refl)).
    reflexivity.
Defined.

(** The entry of [Examples.memory] expires at instant 100; a lookup at
    instant 200 finds it expired. *)
Lemma PluginCache_Eval_expired_witness :
  exists mem' pluginsState',
    @channels.PluginCache_Eval Examples.cache_collaborators 200 200
      Examples.memory Examples.session 2
    = Some (mem', pluginsState', None)
    /\ channels.synthResponse pluginsState' = None
    /\ channels.state pluginsState' = Examples.PluginsStateNone
    /\ channels.CacheHit pluginsState' = false
    /\ channels.sessionData pluginsState' !! "stale"%string = Some 1%positive.
Proof.
  destruct (@PluginCache_Eval_expired Examples.cache_collaborators 200 200
              Examples.memory Examples.session 2
              (channels.mkCachedResponse 1 100)
              [(Examples.key, channels.mkCachedResponse 1 100)]
              (Examples.query 9) (Examples.response 7 false 0))
    as (mem' & ps' & Heval & Hsynth & Hstate & Hhit & Hstale & _);
    [vm_compute; reflexivity | reflexivity | reflexivity | reflexivity |].
  exists mem', ps'. repeat split; assumption.
Defined.

(** A lookup at instant 50 finds the entry fresh. *)
Lemma PluginCache_Eval_stored_message_witness :
  exists s' mem' pluginsState',
    @channels.PluginCache_Eval Examples.cache_collaborators 50 50
      Examples.memory Examples.session 2
    = Some (mem', pluginsState', None)
    /\ channels.heap mem' !! 1%positive = Some s'
    /\ dns.Id (dns.MsgHdr_ s') = 9
    /\ same_but_identity_and_Ttl s' (Examples.response 7 false 0).
Proof.
  destruct (@PluginCache_Eval_stored_message Examples.cache_collaborators 50 50
              Examples.memory Examples.session 2
              (channels.mkCachedResponse 1 100)
              [(Examples.key, channels.mkCachedResponse 1 100)]
              (Examples.query 9) (Examples.response 7 false 0))
    as (s' & ps' & Heval & Hid & _ & _ & Hsame & _);
    [vm_compute; reflexivity | reflexivity | reflexivity |].
  exists s'. eexists _, ps'. split; [exact Heval |].
  split; [apply lookup_insert_eq |]. split; assumption.
Defined.

(** C3, as stated, fails: the stored response of [Examples.memory] has id 7
    and its response and compression flags are false; after a lookup by a
    query of id 9 at instant 200, which finds the entry expired, the message
    at the same location has id 9 and both flags true. *)
Lemma PluginCache_Eval_rewrites_stored_identity :
  exists before after mem' pluginsState',
    channels.heap Examples.memory !! 1%positive = Some before
    /\ @channels.PluginCache_Eval Examples.cache_collaborators 200 200
         Examples.memory Examples.session 2
       = Some (mem', pluginsState', None)
    /\ channels.heap mem' !! 1%positive = Some after
    /\ After 200 100 = true
    /\ (dns.Id (dns.MsgHdr_ before), dns.Response (dns.MsgHdr_ before),
        dns.Compress before) = (7, false, false)
    /\ (dns.Id (dns.MsgHdr_ after), dns.Response (dns.MsgHdr_ after),
        dns.Compress after) = (9, true, true).
Proof.
  eexists _, _, _, _.
  split; [reflexivity |].
  split; [vm_compute; reflexivity |].
  split; [vm_compute; reflexivity |].
  repeat split.
Qed.

(** ** Certificate arbitration *)

Section Arbitration.

Context `{main.Collaborators}.

(** A candidate that fails the length, magic or signature check leaves the
    loop's variables as they are. *)
Lemma arbitrate_rejects (proxy : main.Proxy) (pk : list byte)
    (providerName : string) (now : Z) (st : main.CertInfo * Z)
    (hdr : dns.RR_Header) (t : list string) :
  let binCert := main.packTxtString (String.concat "" t) in
  (length binCert < 124)%nat
  \/ firstn 4 binCert <> firstn 4 main.CertMagic
  \/ main.ed25519_Verify pk (skipn 72 binCert) (slice 8 72 binCert) = false ->
  main.arbitrate proxy pk providerName now st (dns.mkRR hdr (dns.TXT t)) = st.
Proof.
  intros binCert Hbad. destruct st as [certInfo highestSerial].
  unfold main.arbitrate. cbn [dns.Data]. fold binCert.
  destruct (Nat.ltb_spec (length binCert) 124) as [Hshort | Hlong];
    [reflexivity |].
  destruct (bytes_Equal (firstn 4 binCert) (firstn 4 main.CertMagic)) eqn:Hmagic;
    [| reflexivity].
  apply bytes_Equal_eq in Hmagic. cbn [negb].
  destruct Hbad as [Hlen | [Hne | Hsig]]; [lia | contradiction |].
  rewrite Hsig. cbn [negb].
  destruct (Uint16 (slice 4 6 binCert) =? 1); [reflexivity |].
  destruct (Uint16 (slice 4 6 binCert) =? 2); reflexivity.
Qed.

(** Without relays, the resolution is one direct exchange followed by the
    arbitration of the answers. *)
Lemma FetchCurrentDNSCryptCert_direct (net net' : main.Net) (unixNow : Z)
    (proxy : main.Proxy) (serverName : option string) (proto : string)
    (pk : list byte) (serverAddress providerName : string) (isNew : bool)
    (in_ : dns.Msg) (rtt : Duration) :
  let name :=
    if negb (main.HasSuffix providerName ".")
    then (providerName ++ ".")%string else providerName in
  length pk = 32%nat ->
  main._dnsExchange net proto name serverAddress None = (inr (in_, rtt), net') ->
  main.FetchCurrentDNSCryptCert net unixNow proxy serverName proto pk
    serverAddress providerName isNew []
  = Some (outcome [] rtt
            (main.arbitration proxy pk name (uint32 unixNow) (dns.Answer in_)),
          net').
Proof.
  intros name Hpk Hexchange. unfold main.FetchCurrentDNSCryptCert.
  rewrite Hpk. cbn [Nat.eqb negb length Nat.ltb Nat.leb]. fold name.
  unfold main.dnsExchange. rewrite Hexchange. cbn [main.last main.network].
  unfold outcome.
  destruct (main.arbitration proxy pk name (uint32 unixNow) (dns.Answer in_))
    as [certInfo highestSerial].
  cbn [fst main.workingSet].
  destruct (main.CryptoConstruction certInfo =? main.UndefinedConstruction);
    reflexivity.
Qed.

(** C5.  A TXT candidate that decodes to fewer than 124 bytes, or whose
    first four bytes are not the certificate magic, or whose signature does
    not verify, leaves the best certificate and the highest serial as they
    are, whatever its serial says.  The outcome of the arbitration is the one
    that the other candidates give, and so is what the resolution returns:
    the candidate alone makes no resolution fail. *)
Theorem invalid_candidate_ignored (proxy : main.Proxy) (pk : list byte)
    (hdr : dns.RR_Header) (t : list string) :
  let binCert := main.packTxtString (String.concat "" t) in
  (length binCert < 124)%nat
  \/ firstn 4 binCert <> firstn 4 main.CertMagic
  \/ main.ed25519_Verify pk (skipn 72 binCert) (slice 8 72 binCert) = false ->
  (forall providerName now certInfo highestSerial,
      main.arbitrate proxy pk providerName now (certInfo, highestSerial)
        (dns.mkRR hdr (dns.TXT t))
      = (certInfo, highestSerial))
  /\ (forall providerName now before after,
         main.arbitration proxy pk providerName now
           (before ++ dns.mkRR hdr (dns.TXT t) :: after)
         = main.arbitration proxy pk providerName now (before ++ after))
  /\ (forall net net' unixNow serverName proto serverAddress providerName
             isNew in_ rtt before after,
         let name :=
           if negb (main.HasSuffix providerName ".")
           then (providerName ++ ".")%string else providerName in
         length pk = 32%nat ->
         main._dnsExchange net proto name serverAddress None
         = (inr (in_, rtt), net') ->
         dns.Answer in_ = before ++ dns.mkRR hdr (dns.TXT t) :: after ->
         main.FetchCurrentDNSCryptCert net unixNow proxy serverName proto pk
           serverAddress providerName isNew []
         = Some (outcome [] rtt
                   (main.arbitration proxy pk name (uint32 unixNow)
                      (before ++ after)),
                 net')).
Proof.
  intros binCert Hbad.
  assert (Hloop : forall providerName now before after,
    main.arbitration proxy pk providerName now
      (before ++ dns.mkRR hdr (dns.TXT t) :: after)
    = main.arbitration proxy pk providerName now (before ++ after)).
  { intros providerName now before after. unfold main.arbitration.
    rewrite !fold_left_app. cbn [fold_left].
    now rewrite arbitrate_rejects. }
  split; [| split].
  - intros providerName now certInfo highestSerial. now apply arbitrate_rejects.
  - exact Hloop.
  - intros net net' unixNow serverName proto serverAddress providerName isNew
      in_ rtt before after name Hpk Hexchange Hanswer.
    rewrite (FetchCurrentDNSCryptCert_direct net net' unixNow proxy serverName
               proto pk serverAddress providerName isNew in_ rtt Hpk Hexchange).
    fold name. now rewrite Hanswer, Hloop.
Qed.

(** C1 (amended).  At a serial equal to the highest so far, a candidate that
    passes the other checks is skipped only when its construction value is
    strictly lower than the current one; the server key, shared key, query
    magic and construction then stay as they are.  With an equal or higher
    construction value the candidate replaces the current best.  (The two
    length hypotheses state the array types of [ServerPk] and
    [MagicQuery].) *)
Theorem equal_serial_arbitration (proxy : main.Proxy) (pk : list byte)
    (providerName : string) (now : Z) (certInfo : main.CertInfo)
    (highestSerial : Z) (hdr : dns.RR_Header) (t : list string) :
  let binCert := main.packTxtString (String.concat "" t) in
  let result :=
    main.arbitrate proxy pk providerName now (certInfo, highestSerial)
      (dns.mkRR hdr (dns.TXT t)) in
  otherwise_valid proxy pk now binCert ->
  Uint32 (slice 112 116 binCert) = highestSerial ->
  length (main.ServerPk certInfo) = 32%nat ->
  length (main.MagicQuery certInfo) = main.ClientMagicLen ->
  (announced binCert < main.CryptoConstruction certInfo ->
   snd result = highestSerial
   /\ main.ServerPk (fst result) = main.ServerPk certInfo
   /\ main.SharedKey (fst result) = main.SharedKey certInfo
   /\ main.MagicQuery (fst result) = main.MagicQuery certInfo
   /\ main.CryptoConstruction (fst result) = main.CryptoConstruction certInfo)
  /\ (main.CryptoConstruction certInfo <= announced binCert ->
      snd result = highestSerial
      /\ main.ServerPk (fst result) = slice 72 104 binCert
      /\ main.SharedKey (fst result)
         = main.ComputeSharedKey (announced binCert)
             (main.proxySecretKey proxy) (slice 72 104 binCert) providerName
      /\ main.MagicQuery (fst result) = slice 104 112 binCert
      /\ main.CryptoConstruction (fst result) = announced binCert).
Proof.
  intros binCert result (Hlen & Hmagic & Hversion & Hsig & Hwindow & Hnow)
    Hserial Hpk Hmq.
  assert (Hkey : copy (repeat x00 32) (slice 72 104 binCert)
                 = slice 72 104 binCert).
  { apply copy_same_length. rewrite repeat_length, slice_length; lia. }
  assert (Hresult : result =
    let certInfo' :=
      main.set_ForwardSecurity
        (negb (86400 * 7 <? uint32 (Uint32 (slice 120 124 binCert)
                                    - Uint32 (slice 116 120 binCert))))
        certInfo in
    if announced binCert <? main.CryptoConstruction certInfo
    then (certInfo', highestSerial)
    else ({| main.SharedKey :=
               main.ComputeSharedKey (announced binCert)
                 (main.proxySecretKey proxy) (slice 72 104 binCert)
                 providerName;
             main.CryptoConstruction := announced binCert;
             main.ServerPk := slice 72 104 binCert;
             main.MagicQuery := slice 104 112 binCert;
             main.ForwardSecurity := main.ForwardSecurity certInfo' |},
          highestSerial)).
  { subst result. unfold main.arbitrate. cbn [dns.Data]. fold binCert.
    destruct (Nat.ltb_spec (length binCert) 124) as [Hshort | _]; [lia |].
    apply bytes_Equal_eq in Hmagic. rewrite Hmagic, Hsig. cbn [negb].
    assert (Hnow' : (negb (main.certIgnoreTimestamp proxy)
                     && ((Uint32 (slice 120 124 binCert) <? now)
                         || (now <? Uint32 (slice 116 120 binCert)))) = false).
    { destruct (main.certIgnoreTimestamp proxy); [reflexivity |].
      specialize (Hnow eq_refl). cbn [negb andb].
      apply orb_false_iff. split; apply Z.ltb_ge; lia. }
    assert (Hwindow' : (Uint32 (slice 120 124 binCert)
                        <=? Uint32 (slice 116 120 binCert)) = false)
      by (apply Z.leb_gt; lia).
    unfold announced.
    destruct Hversion as [Hv | Hv]; rewrite Hv; cbn [Z.eqb Pos.eqb];
      rewrite Hwindow', Hserial, Z.ltb_irrefl, Z.eqb_refl, Hkey;
      cbn [andb];
      destruct (86400 * 7 <? _); cbn [negb];
        rewrite ?Hnow'; cbn [main.CryptoConstruction main.set_ForwardSecurity];
        destruct (_ <? main.CryptoConstruction certInfo); cbn [negb andb];
        try reflexivity;
        rewrite !copy_same_length; try reflexivity;
        try (rewrite slice_length; [exact Hpk | lia | lia]);
        try (rewrite slice_length; [exact Hmq | lia | lia]);
        try exact Hpk; try exact Hmq. }
  rewrite Hresult. cbv zeta. split; intros Hcmp.
  - destruct (Z.ltb_spec (announced binCert) (main.CryptoConstruction certInfo));
      [| lia]. repeat split.
  - destruct (Z.ltb_spec (announced binCert) (main.CryptoConstruction certInfo));
      [lia |]. repeat split.
Qed.

End Arbitration.

(** A forged certificate of serial 9 does not displace the certificate of
    serial 5. *)
Lemma invalid_candidate_ignored_witness :
  @main.arbitration Examples.resolver_collaborators Examples.proxy Examples.pk
    "2.dnscrypt-cert.example." Examples.now
    [Examples.txt Examples.cert_5_day; Examples.txt Examples.cert_forged]
  = @main.arbitration Examples.resolver_collaborators Examples.proxy
      Examples.pk "2.dnscrypt-cert.example." Examples.now
      [Examples.txt Examples.cert_5_day].
Proof.
  refine (proj1 (proj2 (@invalid_candidate_ignored
    Examples.resolver_collaborators Examples.proxy Examples.pk
    (dns.mkRR_Header "2.dnscrypt-cert.example." dns.TypeTXT 1 3600 0)
    [string_of_list_byte Examples.cert_forged] _))
    "2.dnscrypt-cert.example."%string Examples.now
    [Examples.txt Examples.cert_5_day] []).
  right; right. vm_compute. reflexivity.
Defined.

(** After [Examples.cert_1a], the candidate [Examples.cert_1b] of the same
    serial and the same construction replaces the best certificate. *)
Lemma equal_serial_arbitration_witness :
  let best :=
    @main.arbitration Examples.resolver_collaborators Examples.proxy
      Examples.pk "2.dnscrypt-cert.example." Examples.now
      [Examples.txt Examples.cert_1a] in
  let result :=
    @main.arbitrate Examples.resolver_collaborators Examples.proxy Examples.pk
      "2.dnscrypt-cert.example." Examples.now (fst best, 1)
      (Examples.txt Examples.cert_1b) in
  snd result = 1
  /\ main.ServerPk (fst result)
     = slice 72 104
         (main.packTxtString
            (String.concat "" [string_of_list_byte Examples.cert_1b])).
Proof.
  intros best result.
  destruct (@equal_serial_arbitration Examples.resolver_collaborators
              Examples.proxy Examples.pk "2.dnscrypt-cert.example."
              Examples.now (fst best) 1
              (dns.mkRR_Header "2.dnscrypt-cert.example." dns.TypeTXT 1 3600 0)
              [string_of_list_byte Examples.cert_1b])
    as [_ Hreplace].
  - repeat split; try (vm_compute; reflexivity); try (vm_compute; lia);
      try (vm_compute; discriminate).
  - vm_compute. reflexivity.
  - vm_compute. reflexivity.
  - vm_compute. reflexivity.
  - destruct Hreplace as (Hserial & Hkey & _); [vm_compute; discriminate |].
    split; [exact Hserial | exact Hkey].
Defined.

(** C1, as stated, fails.  [Examples.cert_1a] and [Examples.cert_1b] pass
    every check, carry the same serial 1 and the same construction; they
    differ in the server key and the query magic.  After the first is
    accepted, the second, whose construction value is equal (not strictly
    higher), is accepted too and replaces the server key, the shared key and
    the query magic.  The stand-in for signature verification accepts both,
    as Ed25519 accepts two certificates signed by the provider. *)
Lemma equal_construction_replaces :
  let best :=
    @main.arbitration Examples.resolver_collaborators Examples.proxy
      Examples.pk "2.dnscrypt-cert.example." Examples.now
      [Examples.txt Examples.cert_1a] in
  let result :=
    @main.arbitrate Examples.resolver_collaborators Examples.proxy Examples.pk
      "2.dnscrypt-cert.example." Examples.now best
      (Examples.txt Examples.cert_1b) in
  main.packTxtString (string_of_list_byte Examples.cert_1b) = Examples.cert_1b
  /\ @otherwise_valid Examples.resolver_collaborators Examples.proxy
       Examples.pk Examples.now Examples.cert_1b
  /\ Uint32 (slice 112 116 Examples.cert_1b) = snd best
  /\ announced Examples.cert_1b = main.CryptoConstruction (fst best)
  /\ (main.ServerPk (fst best), main.MagicQuery (fst best))
     = (repeat x0a 32, repeat x1a 8)
  /\ (main.ServerPk (fst result), main.SharedKey (fst result),
      main.MagicQuery (fst result))
     = (repeat x0b 32, repeat x0b 32, repeat x1b 8).
Proof.
  cbv zeta. split; [vm_compute; reflexivity |]. split.
  - repeat split; try (vm_compute; reflexivity); try (vm_compute; lia);
      try (vm_compute; discriminate).
  - repeat split; vm_compute; reflexivity.
Qed.

(** C2.  The answer carries a certificate of serial 5 valid for one day, then
    a certificate of serial 3 valid for thirty days.  The first wins: the
    returned server key is its key, and its window has 86400 seconds, at most
    seven days.  The second is skipped as superseded, but it has already set
    the flag: the returned [ForwardSecurity] is false.  With the two records
    in the other order the same certificate wins and the flag is true. *)
Theorem ForwardSecurity_of_last_candidate :
  exists certInfo certInfo',
    @main.FetchCurrentDNSCryptCert Examples.resolver_collaborators
      [inr (Examples.reply [Examples.txt Examples.cert_5_day;
                            Examples.txt Examples.cert_3_month], 42000000)]
      Examples.now Examples.proxy None "udp" Examples.pk "192.0.2.1:443"
      "2.dnscrypt-cert.example" true []
    = Some (([], certInfo, 42, None), [])
    /\ @main.FetchCurrentDNSCryptCert Examples.resolver_collaborators
         [inr (Examples.reply [Examples.txt Examples.cert_3_month;
                               Examples.txt Examples.cert_5_day], 42000000)]
         Examples.now Examples.proxy None "udp" Examples.pk "192.0.2.1:443"
         "2.dnscrypt-cert.example" true []
       = Some (([], certInfo', 42, None), [])
    /\ main.ServerPk certInfo = slice 72 104 Examples.cert_5_day
    /\ main.ServerPk certInfo' = slice 72 104 Examples.cert_5_day
    /\ Uint32 (slice 120 124 Examples.cert_5_day)
       - Uint32 (slice 116 120 Examples.cert_5_day) = 86400
    /\ main.ForwardSecurity certInfo = false
    /\ main.ForwardSecurity certInfo' = true.
Proof.
  eexists _, _.
  split; [vm_compute; reflexivity |].
  split; [vm_compute; reflexivity |].
  repeat split.
Qed.

(** C4.  Two relays are given.  The exchange through the first succeeds, so
    the first relay enters the working set; the exchange through the second
    fails, and so does its direct retry.  The resolution returns the error of
    the last attempt, although the working set is not empty.  With the relays
    tried in the other order, the same three outcomes of the network give a
    successful resolution. *)
Theorem last_relay_error_fails_resolution :
  let relay1 := Some "198.51.100.1:443"%string in
  let relay2 := Some "198.51.100.2:443"%string in
  let answer := (Examples.reply [Examples.txt Examples.cert_5_day], 42000000) in
  @main.workingSet Examples.resolver_collaborators
    (@main.relayLoop Examples.resolver_collaborators
       [inr answer; inl "i/o timeout"%string; inl "i/o timeout"%string]
       "udp" "2.dnscrypt-cert.example." "192.0.2.1:443" [relay1; relay2])
  = [relay1]
  /\ @main.FetchCurrentDNSCryptCert Examples.resolver_collaborators
       [inr answer; inl "i/o timeout"%string; inl "i/o timeout"%string]
       Examples.now Examples.proxy None "udp" Examples.pk "192.0.2.1:443"
       "2.dnscrypt-cert.example" true [relay1; relay2]
     = Some (@main.failure Examples.resolver_collaborators "i/o timeout", [])
  /\ exists certInfo,
       @main.FetchCurrentDNSCryptCert Examples.resolver_collaborators
         [inl "i/o timeout"%string; inl "i/o timeout"%string; inr answer]
         Examples.now Examples.proxy None "udp" Examples.pk "192.0.2.1:443"
         "2.dnscrypt-cert.example" true [relay2; relay1]
       = Some (([relay1], certInfo, 42, None), []).
Proof.
  cbv zeta. split; [vm_compute; reflexivity |].
  split; [vm_compute; reflexivity |].
  eexists. vm_compute. reflexivity.
Qed.
